(** * Contact routes (src/routes/contacts.py)

    A shallow embedding of the six FastAPI handlers of the [/contacts]
    router.  A handler is a coroutine that awaits calls of the data-access
    module [repository_contacts] and either returns a value or raises an
    [HTTPException]; the route decorators are records holding the arguments
    the source passes to them. *)

From Stdlib Require Import ZArith List String Bool Lia.
Import ListNotations.

Local Open Scope Z_scope.
Local Open Scope string_scope.

(** ** Data model *)

(** [src.database.models.Role], as the allow-lists of the source name it. *)
Inductive Role : Type := admin | moderator | user.

Definition Role_eqb (a b : Role) : bool :=
  match a, b with
  | admin, admin | moderator, moderator | user, user => true
  | _, _ => false
  end.

(** Modelled from the spec: [src.database.models.User] is not among the
    sources; the spec says a user "carries an identity and a role". *)
Record User : Type := { user_id : Z; user_role : Role }.

(** Modelled from the spec: the Contact entity (identifier, first name, last
    name, email, owner, creation day); the other columns play no part in the
    routes. *)
Record Contact : Type := {
  contact_id : Z;
  contact_firstname : string;
  contact_lastname : string;
  contact_email : string;
  contact_owner : Z;
  contact_created : Z
}.

(** Modelled from the spec: [src.schemas.ContactModel], the full payload of
    a create request. *)
Record ContactModel : Type := {
  firstname : string;
  lastname : string;
  email : string
}.

(** Modelled from the spec: [src.schemas.ContactUpdateModel], every field
    optional. *)
Record ContactUpdateModel : Type := {
  upd_firstname : option string;
  upd_lastname : option string;
  upd_email : option string
}.

(** ** HTTP statuses and exceptions *)

Definition HTTP_200_OK : Z := 200.
Definition HTTP_201_CREATED : Z := 201.
Definition HTTP_204_NO_CONTENT : Z := 204.
Definition HTTP_401_UNAUTHORIZED : Z := 401.
Definition HTTP_403_FORBIDDEN : Z := 403.
Definition HTTP_404_NOT_FOUND : Z := 404.
Definition HTTP_409_CONFLICT : Z := 409.
Definition HTTP_422_UNPROCESSABLE_ENTITY : Z := 422.
Definition HTTP_429_TOO_MANY_REQUESTS : Z := 429.

Record HTTPException : Type := { exc_status_code : Z; detail : string }.

(** ** Python values *)

(** The values the routes handle: what a data-access call comes back with
    is [None], one mapped row, or a list of rows, and the handlers test it
    with [not v], [if v] and [v is None]. *)
Inductive Value : Type :=
| py_None
| py_row (c : Contact)
| py_list (l : list Contact).

(** [bool(v)]: [None] and the empty list are false, a mapped row and a list
    with an element are true. *)
Definition truthy (v : Value) : bool :=
  match v with
  | py_None => false
  | py_row _ => true
  | py_list [] => false
  | py_list (_ :: _) => true
  end.

(** [v is None]. *)
Definition is_None (v : Value) : bool :=
  match v with
  | py_None => true
  | _ => false
  end.

(** [bool(s)] for [s : Optional[str]]: [None] and the empty string are
    false. *)
Definition truthy_str (s : option string) : bool :=
  match s with
  | None => false
  | Some EmptyString => false
  | Some (String _ _) => true
  end.

(** [a or b] on optional strings: [a] when it is true, else [b]. *)
Definition py_or (a b : option string) : option string :=
  if truthy_str a then a else b.

(** ** The data-access module *)

(** The calls the routes make on [src.repository.contacts], with the
    arguments the source passes, the database session [db] left out: the
    session is the state the calls are run on. *)
Module repository_contacts.

Inductive call : Type :=
| get_contact_by_filter (current_user : User)
    (firstname lastname email : option string)
| get_contacts (current_user : User)
| contacts_per_days (days : Z) (current_user : User)
| get_contact_by_id (contact_id : Z) (current_user : User)
| get_contact_by_email (email : string) (current_user : User)
| create_contact (body : ContactModel) (current_user : User)
| update_contact (body : ContactUpdateModel) (contact_id : Z)
    (current_user : User)
| remove_contact (contact_id : Z).

(** The identity a call is given, if it is given one. *)
Definition identity (c : call) : option User :=
  match c with
  | get_contact_by_filter u _ _ _ => Some u
  | get_contacts u => Some u
  | contacts_per_days _ u => Some u
  | get_contact_by_id _ u => Some u
  | get_contact_by_email _ u => Some u
  | create_contact _ u => Some u
  | update_contact _ _ u => Some u
  | remove_contact _ => None
  end.

(** Whether a call is the one that writes a new record. *)
Definition is_create (c : call) : bool :=
  match c with
  | create_contact _ _ => true
  | _ => false
  end.

End repository_contacts.

(** A data-access layer over sessions of type [Session]: the value each
    call comes back with, and the session after it. *)
Definition Repository (Session : Type) : Type :=
  repository_contacts.call -> Session -> Value * Session.

(** One entry of the log of a request: a call and the value it came back
    with. *)
Definition Called : Type := repository_contacts.call * Value.

(** ** Coroutines *)

(** An [async def] body: it returns, raises, or awaits a data-access call
    and goes on with its value. *)
Inductive Coroutine : Type :=
| Return (v : Value)
| Raise (e : HTTPException)
| Await (c : repository_contacts.call) (k : Value -> Coroutine).

Notation "x <- 'await' c ;; k" := (Await c (fun x => k))
  (at level 100, c at next level, right associativity).

(** ** The handlers *)

Definition get_contacts (firstname lastname email : option string)
    (current_user : User) : Coroutine :=
  contacts <- await
    (if truthy_str (py_or (py_or firstname lastname) email)
     then repository_contacts.get_contact_by_filter
            current_user firstname lastname email
     else repository_contacts.get_contacts current_user) ;;
  if negb (truthy contacts)
  then Raise {| exc_status_code := HTTP_404_NOT_FOUND;
                detail := "No contacts found" |}
  else Return contacts.

Definition get_contacts_by_days (days : Z) (current_user : User)
    : Coroutine :=
  contacts <- await repository_contacts.contacts_per_days days current_user ;;
  if is_None contacts
  then Raise {| exc_status_code := HTTP_404_NOT_FOUND;
                detail := "Not Found" |}
  else Return contacts.

Definition get_contact_by_id (contact_id : Z) (current_user : User)
    : Coroutine :=
  contact <- await
    repository_contacts.get_contact_by_id contact_id current_user ;;
  if is_None contact
  then Raise {| exc_status_code := HTTP_404_NOT_FOUND;
                detail := "Not Found" |}
  else Return contact.

Definition create_contact (body : ContactModel) (current_user : User)
    : Coroutine :=
  contact <- await
    repository_contacts.get_contact_by_email (email body) current_user ;;
  if truthy contact
  then Raise {| exc_status_code := HTTP_409_CONFLICT;
                detail := "Contact with email:" ++ email body
                          ++ " already exist!" |}
  else
    contact <- await repository_contacts.create_contact body current_user ;;
    Return contact.

Definition update_contact (body : ContactUpdateModel) (contact_id : Z)
    (current_user : User) : Coroutine :=
  contact <- await
    repository_contacts.update_contact body contact_id current_user ;;
  if is_None contact
  then Raise {| exc_status_code := HTTP_404_NOT_FOUND;
                detail := "Not Found" |}
  else Return contact.

Definition remove_contact (contact_id : Z) (current_user : User)
    : Coroutine :=
  contact <- await repository_contacts.remove_contact contact_id ;;
  if is_None contact
  then Raise {| exc_status_code := HTTP_404_NOT_FOUND;
                detail := "Not Found" |}
  else Return contact.

(** ** Running a coroutine on a data-access layer *)

Section Run.

Context {Session : Type} (repo : Repository Session).

(** The outcome of a coroutine started on session [db]: what it raised or
    returned, the session it leaves, and the calls it made, in order. *)
Fixpoint run (p : Coroutine) (db : Session)
    : (HTTPException + Value) * Session * list Called :=
  match p with
  | Return v => (inr v, db, [])
  | Raise e => (inl e, db, [])
  | Await c k =>
      let (x, db1) := repo c db in
      let '(out, db2, log) := run (k x) db1 in
      (out, db2, (c, x) :: log)
  end.

End Run.

(** ** Route declarations *)

(** [RoleAccess(allowed_roles)], of [src.services.roles]. *)
Record RoleAccess : Type := { allowed_roles : list Role }.

(** [RateLimiter(times=, seconds=)], of [fastapi_limiter.depends]. *)
Record RateLimiter : Type := { times : Z; seconds : Z }.

(** [Path(ge=)]; a path parameter declared as a plain [int] has no bound. *)
Record Path : Type := { ge : option Z }.

Definition allowed_operation_get : RoleAccess :=
  {| allowed_roles := [admin; moderator; user] |}.
Definition allowed_operation_create : RoleAccess :=
  {| allowed_roles := [admin; moderator; user] |}.
Definition allowed_operation_update : RoleAccess :=
  {| allowed_roles := [admin; moderator; user] |}.
Definition allowed_operation_remove : RoleAccess :=
  {| allowed_roles := [admin] |}.

Inductive Method : Type := GET | POST | PATCH | DELETE.

(** The six operations of the router, named after their handlers. *)
Inductive Operation : Type :=
| op_get_contacts
| op_get_contacts_by_days
| op_get_contact_by_id
| op_create_contact
| op_update_contact
| op_remove_contact.

Definition Operation_eqb (a b : Operation) : bool :=
  match a, b with
  | op_get_contacts, op_get_contacts
  | op_get_contacts_by_days, op_get_contacts_by_days
  | op_get_contact_by_id, op_get_contact_by_id
  | op_create_contact, op_create_contact
  | op_update_contact, op_update_contact
  | op_remove_contact, op_remove_contact => true
  | _, _ => false
  end.

(** What a route decorator and the signature of its handler declare: the
    method and path, the status of a successful response (200 when the
    decorator gives none), the two dependencies, and the declaration of the
    integer path parameter when the path has one. *)
Record Route : Type := {
  method : Method;
  path : string;
  status_code : Z;
  role_access : RoleAccess;
  rate_limiter : RateLimiter;
  path_param : option Path
}.

Definition route (op : Operation) : Route :=
  match op with
  | op_get_contacts =>
      {| method := GET; path := "/"; status_code := HTTP_200_OK;
         role_access := allowed_operation_get;
         rate_limiter := {| times := 2; seconds := 5 |};
         path_param := None |}
  | op_get_contacts_by_days =>
      {| method := GET; path := "/days/{days}"; status_code := HTTP_200_OK;
         role_access := allowed_operation_get;
         rate_limiter := {| times := 2; seconds := 5 |};
         path_param := Some {| ge := None |} |}
  | op_get_contact_by_id =>
      {| method := GET; path := "/contact/{contact_id}";
         status_code := HTTP_200_OK;
         role_access := allowed_operation_get;
         rate_limiter := {| times := 2; seconds := 5 |};
         path_param := Some {| ge := Some 1 |} |}
  | op_create_contact =>
      {| method := POST; path := "/"; status_code := HTTP_201_CREATED;
         role_access := allowed_operation_create;
         rate_limiter := {| times := 2; seconds := 5 |};
         path_param := None |}
  | op_update_contact =>
      {| method := PATCH; path := "/{contact_id}";
         status_code := HTTP_200_OK;
         role_access := allowed_operation_update;
         rate_limiter := {| times := 2; seconds := 5 |};
         path_param := Some {| ge := Some 1 |} |}
  | op_remove_contact =>
      {| method := DELETE; path := "/{contact_id}";
         status_code := HTTP_204_NO_CONTENT;
         role_access := allowed_operation_remove;
         rate_limiter := {| times := 2; seconds := 5 |};
         path_param := Some {| ge := Some 1 |} |}
  end.

(** ** Requests and responses *)

(** The parameters of a request, by operation, as the framework hands them
    to the handler: query strings that may be absent, integer path
    parameters, parsed bodies. *)
Inductive Invocation : Type :=
| inv_get_contacts (firstname lastname email : option string)
| inv_get_contacts_by_days (days : Z)
| inv_get_contact_by_id (contact_id : Z)
| inv_create_contact (body : ContactModel)
| inv_update_contact (body : ContactUpdateModel) (contact_id : Z)
| inv_remove_contact (contact_id : Z).

Definition operation (inv : Invocation) : Operation :=
  match inv with
  | inv_get_contacts _ _ _ => op_get_contacts
  | inv_get_contacts_by_days _ => op_get_contacts_by_days
  | inv_get_contact_by_id _ => op_get_contact_by_id
  | inv_create_contact _ => op_create_contact
  | inv_update_contact _ _ => op_update_contact
  | inv_remove_contact _ => op_remove_contact
  end.

(** The value of the integer path parameter of a request, when its path has
    one. *)
Definition path_value (inv : Invocation) : option Z :=
  match inv with
  | inv_get_contacts _ _ _ => None
  | inv_get_contacts_by_days days => Some days
  | inv_get_contact_by_id contact_id => Some contact_id
  | inv_create_contact _ => None
  | inv_update_contact _ contact_id => Some contact_id
  | inv_remove_contact contact_id => Some contact_id
  end.

(** A request: the user [auth_service.get_current_user] resolves its bearer
    credential to ([None] when it resolves to nobody), the second it arrives
    at, and its parameters. *)
Record Request : Type := {
  req_identity : option User;
  req_time : Z;
  req_invocation : Invocation
}.

Inductive Body : Type :=
| body_empty
| body_detail (message : string)
| body_content (v : Value).

Record Response : Type := { status : Z; body : Body }.

(** FastAPI's rule for statuses that carry no body: below 200, and 204, 205
    and 304. *)
Definition is_body_allowed_for_status_code (code : Z) : bool :=
  negb ((code <? 200)%Z || (code =? 204)%Z || (code =? 205)%Z
        || (code =? 304)%Z).

(** The response to a handler's outcome on route [rt]: an exception gives
    its own status and detail, a returned value the status of the route and,
    when that status allows a body, the value. *)
Definition respond (rt : Route) (out : HTTPException + Value) : Response :=
  match out with
  | inl e => {| status := exc_status_code e; body := body_detail (detail e) |}
  | inr v =>
      {| status := status_code rt;
         body := if is_body_allowed_for_status_code (status_code rt)
                 then body_content v else body_empty |}
  end.

(** The handler a request is routed to, with the caller as
    [current_user]. *)
Definition endpoint (inv : Invocation) (current_user : User) : Coroutine :=
  match inv with
  | inv_get_contacts firstname lastname email =>
      get_contacts firstname lastname email current_user
  | inv_get_contacts_by_days days => get_contacts_by_days days current_user
  | inv_get_contact_by_id contact_id =>
      get_contact_by_id contact_id current_user
  | inv_create_contact body => create_contact body current_user
  | inv_update_contact body contact_id =>
      update_contact body contact_id current_user
  | inv_remove_contact contact_id => remove_contact contact_id current_user
  end.

(** ** The gates in front of a handler *)

(** Modelled from the spec: [RoleAccess.__call__] of [src.services.roles] is
    not among the sources; the spec has it as "a role membership check
    against an operation-specific allow-list" that "returns allow/deny". *)
Definition RoleAccess_call (ra : RoleAccess) (current_user : User) : bool :=
  existsb (Role_eqb (user_role current_user)) (allowed_roles ra).

(** Modelled from the spec: the rate limiter is an external collaborator,
    "a sliding-window counter keyed by identity + route" with a "fixed
    quota: at most 2 invocations per 5-second window per identity+route".
    Its state is the list of the invocations it has let through, each with
    the identity, the route and the second it came at; a request is let
    through when fewer than [times] counted invocations with its key lie in
    the [seconds] before it, and is then added to the list. *)
Definition Counted : Type := Z * Operation * Z.

Definition in_window (rl : RateLimiter) (identity : Z) (op : Operation)
    (now : Z) (a : Counted) : bool :=
  let '(identity', op', t) := a in
  (identity' =? identity)%Z && Operation_eqb op' op
  && (now - seconds rl <? t)%Z.

Definition RateLimiter_call (rl : RateLimiter) (identity : Z)
    (op : Operation) (now : Z) (counted : list Counted)
    : option (list Counted) :=
  if (Z.of_nat (List.length (filter (in_window rl identity op now) counted))
      <? times rl)%Z
  then Some ((identity, op, now) :: counted)
  else None.

(** Validation of the integer path parameter against its declaration. *)
Definition Path_ok (p : Path) (v : Z) : bool :=
  match ge p with
  | None => true
  | Some bound => (bound <=? v)%Z
  end.

Definition validate (rt : Route) (inv : Invocation) : bool :=
  match path_param rt, path_value inv with
  | Some p, Some v => Path_ok p v
  | _, _ => true
  end.

(** ** Serving a request *)

Record Server (Session : Type) : Type := {
  db : Session;
  counted : list Counted
}.

Arguments db {Session} s.
Arguments counted {Session} s.

Definition error_response (code : Z) (message : string) : Response :=
  {| status := code; body := body_detail message |}.

(** The responses of the stages in front of the handler.  Their statuses are
    the usual ones of the framework and its collaborators; the properties
    below depend on the statuses only. *)
Definition unauthorized : Response :=
  error_response HTTP_401_UNAUTHORIZED "Could not validate credentials".
Definition forbidden : Response :=
  error_response HTTP_403_FORBIDDEN "Operation forbidden".
Definition too_many_requests : Response :=
  error_response HTTP_429_TOO_MANY_REQUESTS "Too Many Requests".
Definition unprocessable : Response :=
  error_response HTTP_422_UNPROCESSABLE_ENTITY "Request validation failed".

Section Serve.

Context {Session : Type} (repo : Repository Session).

(** A handler run to its response on route [rt]. *)
Definition handle (rt : Route) (p : Coroutine) (s : Session)
    : Response * Session * list Called :=
  let '(out, s', log) := run repo p s in (respond rt out, s', log).

(** One request through the stages the spec lists: the identity is
    resolved, the role gate and the rate limiter of the route decide, the
    path parameter is validated, and only then the handler body runs.  The
    result is the response, the server afterwards, and the data-access
    calls made. *)
Definition serve (srv : Server Session) (rq : Request)
    : Response * Server Session * list Called :=
  let inv := req_invocation rq in
  let rt := route (operation inv) in
  match req_identity rq with
  | None => (unauthorized, srv, [])
  | Some current_user =>
      if negb (RoleAccess_call (role_access rt) current_user)
      then (forbidden, srv, [])
      else
        match RateLimiter_call (rate_limiter rt) (user_id current_user)
                (operation inv) (req_time rq) (counted srv) with
        | None => (too_many_requests, srv, [])
        | Some counted' =>
            if negb (validate rt inv)
            then (unprocessable,
                  {| db := db srv; counted := counted' |}, [])
            else
              let '(resp, db', log) :=
                handle rt (endpoint inv current_user) (db srv) in
              (resp, {| db := db'; counted := counted' |}, log)
        end
  end.

(** A sequence of requests served one after the other. *)
Fixpoint serve_all (srv : Server Session) (rqs : list Request)
    : list (Response * list Called) * Server Session :=
  match rqs with
  | [] => ([], srv)
  | rq :: rest =>
      let '(resp, srv', log) := serve srv rq in
      let (out, srv'') := serve_all srv' rest in
      ((resp, log) :: out, srv'')
  end.

End Serve.

(** A filter is present when the request carries the query parameter, be
    its value empty or not. *)
Definition present (f : option string) : Prop := f <> None.

(** A data-access layer is scoped when every list one of its calls comes
    back with holds only contacts owned by the identity the call was
    given. *)
Definition owned_by (u : User) (c : Contact) : Prop :=
  contact_owner c = user_id u.

Definition scoped {Session : Type} (repo : Repository Session) : Prop :=
  forall c s u l,
    repository_contacts.identity c = Some u ->
    fst (repo c s) = py_list l ->
    Forall (owned_by u) l.

(** ** A data-access layer in memory *)

(** Modelled from the spec: [src.repository.contacts] is not among the
    sources.  This instance keeps the contacts in a list and does what the
    spec says of each operation: lookups scoped to the owner, filters by
    equality, recency by creation day, create with a fresh identifier and
    the caller as owner, partial update of the fields present, and a delete
    by identifier alone.  The general theorems hold for every data-access
    layer; this one gives them concrete runs. *)
Module Memory.

Record Store : Type := {
  rows : list Contact;
  next_id : Z;
  today : Z
}.

Definition owned (u : User) (c : Contact) : bool :=
  (contact_owner c =? user_id u)%Z.

Definition matches (f : option string) (v : string) : bool :=
  match f with
  | None => true
  | Some s => String.eqb s v
  end.

Definition has_id (i : Z) (c : Contact) : bool := (contact_id c =? i)%Z.

Definition of_find (r : option Contact) : Value :=
  match r with
  | None => py_None
  | Some c => py_row c
  end.

Definition new_contact (body : ContactModel) (u : User) (st : Store)
    : Contact :=
  {| contact_id := next_id st;
     contact_firstname := firstname body;
     contact_lastname := lastname body;
     contact_email := email body;
     contact_owner := user_id u;
     contact_created := today st |}.

Definition or_keep (f : option string) (old : string) : string :=
  match f with
  | None => old
  | Some s => s
  end.

Definition updated (body : ContactUpdateModel) (c : Contact) : Contact :=
  {| contact_id := contact_id c;
     contact_firstname := or_keep (upd_firstname body) (contact_firstname c);
     contact_lastname := or_keep (upd_lastname body) (contact_lastname c);
     contact_email := or_keep (upd_email body) (contact_email c);
     contact_owner := contact_owner c;
     contact_created := contact_created c |}.

Definition repo : Repository Store := fun c st =>
  match c with
  | repository_contacts.get_contact_by_filter u fn ln em =>
      (py_list
         (filter (fun x => owned u x && matches fn (contact_firstname x)
                           && matches ln (contact_lastname x)
                           && matches em (contact_email x)) (rows st)),
       st)
  | repository_contacts.get_contacts u =>
      (py_list (filter (owned u) (rows st)), st)
  | repository_contacts.contacts_per_days days u =>
      (py_list
         (filter (fun x => owned u x
                           && (today st - contact_created x <=? days)%Z)
            (rows st)),
       st)
  | repository_contacts.get_contact_by_id i u =>
      (of_find (find (fun x => owned u x && has_id i x) (rows st)), st)
  | repository_contacts.get_contact_by_email em u =>
      (of_find
         (find (fun x => owned u x && String.eqb em (contact_email x))
            (rows st)),
       st)
  | repository_contacts.create_contact body u =>
      (py_row (new_contact body u st),
       {| rows := rows st ++ [new_contact body u st];
          next_id := next_id st + 1;
          today := today st |})
  | repository_contacts.update_contact body i u =>
      match find (fun x => owned u x && has_id i x) (rows st) with
      | None => (py_None, st)
      | Some old =>
          (py_row (updated body old),
           {| rows := map (fun x => if owned u x && has_id i x
                                    then updated body x else x) (rows st);
              next_id := next_id st;
              today := today st |})
      end
  | repository_contacts.remove_contact i =>
      match find (has_id i) (rows st) with
      | None => (py_None, st)
      | Some old =>
          (py_row old,
           {| rows := filter (fun x => negb (has_id i x)) (rows st);
              next_id := next_id st;
              today := today st |})
      end
  end.

(** Three users and three contacts: Ann (an ordinary user) owns two, Bob (an
    administrator) owns one, Eve (a moderator) owns none. *)
Definition ann : User := {| user_id := 1; user_role := user |}.
Definition bob : User := {| user_id := 2; user_role := admin |}.
Definition eve : User := {| user_id := 3; user_role := moderator |}.

Definition c1 : Contact :=
  {| contact_id := 1; contact_firstname := "Ada";
     contact_lastname := "Lovelace"; contact_email := "ada@example.com";
     contact_owner := 1; contact_created := 10 |}.
Definition c2 : Contact :=
  {| contact_id := 2; contact_firstname := "Alan";
     contact_lastname := "Turing"; contact_email := "alan@example.com";
     contact_owner := 1; contact_created := 18 |}.
Definition c3 : Contact :=
  {| contact_id := 3; contact_firstname := "Grace";
     contact_lastname := "Hopper"; contact_email := "grace@example.com";
     contact_owner := 2; contact_created := 19 |}.

Definition store : Store :=
  {| rows := [c1; c2; c3]; next_id := 4; today := 20 |}.

Definition empty : Store := {| rows := []; next_id := 1; today := 20 |}.

Definition server (st : Store) : Server Store :=
  {| db := st; counted := [] |}.

(** A request of an identified caller. *)
Definition request (u : User) (t : Z) (inv : Invocation) : Request :=
  {| req_identity := Some u; req_time := t; req_invocation := inv |}.

End Memory.

(** The calls that change the store: create, update and delete; the other
    five are lookups. *)
Definition is_write (c : repository_contacts.call) : bool :=
  match c with
  | repository_contacts.create_contact _ _ => true
  | repository_contacts.update_contact _ _ _ => true
  | repository_contacts.remove_contact _ => true
  | _ => false
  end.

(** The number of writing calls in the log of a request. *)
Definition writes (log : list Called) : nat :=
  List.length (filter (fun e => is_write (fst e)) log).

(** The response that carries value [v] with the default status. *)
Definition ok_response (v : Value) : Response :=
  {| status := HTTP_200_OK; body := body_content v |}.

(** * Properties *)

Section Handlers.

Context {Session : Type} (repo : Repository Session).

(** ** Shared facts about the stages of [serve] *)

(** A request that gets past the role gate, the rate limiter and the
    validation is answered by its handler. *)
Lemma serve_handler (srv : Server Session) (rq : Request) (u : User)
    (counted' : list Counted) :
  let inv := req_invocation rq in
  let rt := route (operation inv) in
  req_identity rq = Some u ->
  RoleAccess_call (role_access rt) u = true ->
  RateLimiter_call (rate_limiter rt) (user_id u) (operation inv)
    (req_time rq) (counted srv) = Some counted' ->
  validate rt inv = true ->
  serve repo srv rq =
    let '(resp, db', log) := handle repo rt (endpoint inv u) (db srv) in
    (resp, {| db := db'; counted := counted' |}, log).
Proof.
  intros inv rt Hid Hrole Hlim Hval. unfold serve. fold inv. fold rt.
  rewrite Hid, Hrole, Hlim, Hval. reflexivity.
Qed.

(** The three roles all pass the gate of every operation but delete. *)
Lemma RoleAccess_call_not_remove (op : Operation) (u : User) :
  op <> op_remove_contact ->
  RoleAccess_call (role_access (route op)) u = true.
Proof.
  intros Hop. unfold RoleAccess_call.
  destruct op; try congruence; destruct (user_role u); reflexivity.
Qed.

(** A handler that awaits one call and tests its value. *)
Lemma handle_Await (rt : Route) (c : repository_contacts.call)
    (k : Value -> Coroutine) (s : Session) :
  handle repo rt (Await c k) s =
    let '(resp, s', log) := handle repo rt (k (fst (repo c s)))
                              (snd (repo c s)) in
    (resp, s', (c, fst (repo c s)) :: log).
Proof.
  unfold handle. simpl. destruct (repo c s) as [v s1]. simpl.
  destruct (run repo (k v) s1) as [[out s2] log]. reflexivity.
Qed.

(** The test [firstname or lastname or email] is true exactly when one of
    the three is. *)
Lemma truthy_str_py_or (a b c : option string) :
  truthy_str (py_or (py_or a b) c)
  = truthy_str a || truthy_str b || truthy_str c.
Proof.
  unfold py_or. destruct (truthy_str a) eqn:Ha; simpl.
  - rewrite !Ha. reflexivity.
  - destruct (truthy_str b) eqn:Hb; simpl; rewrite ?Hb; reflexivity.
Qed.

(** A handler answers with the status of its route, with 404 or with
    409. *)
Lemma endpoint_status (inv : Invocation) (u : User) (s : Session) :
  let code :=
    status (fst (fst (handle repo (route (operation inv))
                        (endpoint inv u) s))) in
  code = status_code (route (operation inv))
  \/ code = HTTP_404_NOT_FOUND \/ code = HTTP_409_CONFLICT.
Proof.
  destruct inv; simpl;
    unfold get_contacts, get_contacts_by_days, get_contact_by_id,
      create_contact, update_contact, remove_contact;
    rewrite handle_Await;
    match goal with
    | |- context [repo ?c s] => destruct (repo c s) as [v s1]
    end; simpl fst; simpl snd;
    destruct v as [| row | [| x l]]; simpl; auto;
    rewrite handle_Await; simpl; auto.
Qed.

(** Past the identity and the role gate, a request is answered with 429
    exactly when the limiter refuses it. *)
Lemma serve_limited_iff (srv : Server Session) (rq : Request) (u : User) :
  let inv := req_invocation rq in
  let rt := route (operation inv) in
  req_identity rq = Some u ->
  RoleAccess_call (role_access rt) u = true ->
  status (fst (fst (serve repo srv rq))) = HTTP_429_TOO_MANY_REQUESTS
  <-> RateLimiter_call (rate_limiter rt) (user_id u) (operation inv)
        (req_time rq) (counted srv) = None.
Proof.
  intros inv rt Hid Hrole. unfold serve. fold inv. fold rt.
  rewrite Hid, Hrole. simpl.
  destruct (RateLimiter_call _ _ _ _ _) as [counted' |].
  - destruct (validate rt inv); simpl.
    + pose proof (endpoint_status inv u (db srv)) as Hcode.
      fold rt in Hcode.
      destruct (handle repo rt (endpoint inv u) (db srv))
        as [[resp db'] log].
      simpl in *. split; [| discriminate].
      intros H. rewrite H in Hcode. exfalso.
      destruct Hcode as [Hc | [Hc | Hc]]; try discriminate Hc.
      subst rt. destruct (operation inv); discriminate Hc.
    + split; discriminate.
  - split; reflexivity.
Qed.

End Handlers.

(** ** Listing: empty results *)

Section Listing.

Context {Session : Type} (repo : Repository Session).

(** C1. List contacts: the handler delegates to the filtered lookup when
    one of the filters is true and to the unfiltered one otherwise, and
    whenever that lookup comes back with the empty sequence the response is
    the 404 "No contacts found", not a 200 with an empty list; the lookup
    is the one call made and the session is as it left it. *)
Theorem get_contacts_empty_is_not_found
    (firstname lastname email : option string) (current_user : User)
    (s : Session) :
  let some_filter :=
    truthy_str firstname || truthy_str lastname || truthy_str email in
  let lookup :=
    if some_filter
    then repository_contacts.get_contact_by_filter
           current_user firstname lastname email
    else repository_contacts.get_contacts current_user in
  let outcome :=
    handle repo (route op_get_contacts)
      (get_contacts firstname lastname email current_user) s in
  fst (repo lookup s) = py_list [] ->
  outcome
  = (error_response HTTP_404_NOT_FOUND "No contacts found",
     snd (repo lookup s), [(lookup, py_list [])])
  /\ status (fst (fst outcome)) <> HTTP_200_OK.
Proof.
  intros some_filter lookup outcome Hempty. subst outcome.
  unfold get_contacts. rewrite handle_Await.
  rewrite truthy_str_py_or. fold some_filter. fold lookup.
  rewrite Hempty. simpl. split; [reflexivity | discriminate].
Qed.

(** C2. List by recency: the response is 404 exactly when the lookup came
    back with [None]; an empty sequence from the lookup is a 200 whose
    body is the empty list. *)
Theorem get_contacts_by_days_not_found_iff_None
    (days : Z) (current_user : User) (s : Session) :
  let result :=
    fst (repo (repository_contacts.contacts_per_days days current_user) s) in
  let resp :=
    fst (fst (handle repo (route op_get_contacts_by_days)
                (get_contacts_by_days days current_user) s)) in
  (status resp = HTTP_404_NOT_FOUND <-> result = py_None)
  /\ (result = py_list [] ->
      resp = {| status := HTTP_200_OK;
                body := body_content (py_list []) |}).
Proof.
  intros result resp. subst resp. unfold get_contacts_by_days.
  rewrite handle_Await. fold result.
  destruct result as [| row | l]; simpl; split;
    try (split; intros H; try reflexivity; discriminate H);
    try (intros H; discriminate H).
  intros H. inversion H; subst. reflexivity.
Qed.

End Listing.

(** ** Creating and deleting *)

Section Mutations.

Context {Session : Type} (repo : Repository Session).

(** C3. Create: when the lookup by the payload's email for the caller
    finds a contact, the response is the 409 whose detail names that
    email, the lookup is the only call made (no create call) and the
    session is the one the lookup left; when it finds none, the handler
    delegates to create and the response is a 201 with the contact create
    came back with. *)
Theorem create_contact_conflict_or_created
    (body : ContactModel) (current_user : User) (s : Session) :
  let lookup :=
    repository_contacts.get_contact_by_email (email body) current_user in
  let create := repository_contacts.create_contact body current_user in
  let found := fst (repo lookup s) in
  let s1 := snd (repo lookup s) in
  let outcome :=
    handle repo (route op_create_contact)
      (create_contact body current_user) s in
  (forall existing, found = py_row existing ->
     outcome =
       (error_response HTTP_409_CONFLICT
          ("Contact with email:" ++ email body ++ " already exist!"),
        s1, [(lookup, found)])
     /\ existsb (fun e => repository_contacts.is_create (fst e))
          (snd outcome) = false)
  /\ (found = py_None ->
      outcome =
        ({| status := HTTP_201_CREATED;
            body := body_content (fst (repo create s1)) |},
         snd (repo create s1),
         [(lookup, found); (create, fst (repo create s1))])).
Proof.
  intros lookup create found s1 outcome. subst outcome.
  unfold create_contact. rewrite handle_Await.
  fold lookup. fold found. fold s1. split.
  - intros existing Hfound. rewrite Hfound. simpl. split; reflexivity.
  - intros Hfound. rewrite Hfound. simpl truthy. cbv iota.
    rewrite handle_Await. fold create. reflexivity.
Qed.

(** C4. Delete, for a request with a valid identifier that reaches the
    handler: when the delete came back with the removed contact the
    response is a 204 with an empty body, and when it came back with
    [None] (no such contact) the response is the 404 "Not Found". *)
Theorem remove_contact_no_content_or_not_found
    (srv : Server Session) (rq : Request) (contact_id : Z)
    (current_user : User) (counted' : list Counted) :
  req_invocation rq = inv_remove_contact contact_id ->
  1 <= contact_id ->
  req_identity rq = Some current_user ->
  user_role current_user = admin ->
  RateLimiter_call (rate_limiter (route op_remove_contact))
    (user_id current_user) op_remove_contact (req_time rq) (counted srv)
    = Some counted' ->
  let removed :=
    fst (repo (repository_contacts.remove_contact contact_id) (db srv)) in
  let resp := fst (fst (serve repo srv rq)) in
  (removed <> py_None ->
   resp = {| status := HTTP_204_NO_CONTENT; body := body_empty |})
  /\ (removed = py_None ->
      resp = error_response HTTP_404_NOT_FOUND "Not Found").
Proof.
  intros Hinv Hid Huser Hrole Hlim removed resp. subst resp.
  rewrite (serve_handler repo srv rq current_user counted');
    rewrite ?Hinv; simpl operation; auto.
  - simpl endpoint. unfold remove_contact. rewrite handle_Await.
    fold removed. destruct removed as [| row | l]; simpl;
      split; intros H; try reflexivity; try discriminate H.
    contradiction H. reflexivity.
  - unfold RoleAccess_call. rewrite Hrole. reflexivity.
  - unfold validate, Path_ok. simpl. apply Z.leb_le. exact Hid.
Qed.

End Mutations.

(** ** Roles and ownership *)

Section Gates.

Context {Session : Type} (repo : Repository Session).

(** C5. A caller whose role is "user" or "moderator" is denied by the role
    gate of delete, whose allow-list holds "admin" alone: the request is
    answered by the gate, the server is left as it was and no data-access
    call is made.  The gates of the get, create and update operations let
    all three roles through. *)
Theorem remove_is_for_admin_only
    (srv : Server Session) (rq : Request) (current_user : User) :
  user_role current_user = user \/ user_role current_user = moderator ->
  req_identity rq = Some current_user ->
  operation (req_invocation rq) = op_remove_contact ->
  allowed_roles (role_access (route op_remove_contact)) = [admin]
  /\ RoleAccess_call (role_access (route op_remove_contact)) current_user
     = false
  /\ serve repo srv rq = (forbidden, srv, [])
  /\ (forall (op : Operation) (role : Role) (i : Z),
        op <> op_remove_contact ->
        RoleAccess_call (role_access (route op))
          {| user_id := i; user_role := role |} = true).
Proof.
  intros Hrole Hid Hop. split; [reflexivity |].
  assert (Hdeny : RoleAccess_call (role_access (route op_remove_contact))
                    current_user = false).
  { unfold RoleAccess_call. destruct Hrole as [H | H]; rewrite H;
      reflexivity. }
  split; [exact Hdeny |]. split.
  - unfold serve. rewrite Hid, Hop, Hdeny. reflexivity.
  - intros op role i Hne. apply RoleAccess_call_not_remove. exact Hne.
Qed.

(** C6. The call delete makes on the data-access layer is given the
    contact identifier alone, no identity: the run of the handler is the
    same whoever the caller is.  Every other operation makes at least one
    call, and each call it makes is given the caller. *)
Theorem remove_contact_is_not_scoped :
  (forall (contact_id : Z) (current_user : User) (s : Session),
      map fst (snd (run repo (remove_contact contact_id current_user) s))
      = [repository_contacts.remove_contact contact_id]
      /\ repository_contacts.identity
           (repository_contacts.remove_contact contact_id) = None
      /\ forall other : User,
           run repo (remove_contact contact_id other) s
           = run repo (remove_contact contact_id current_user) s)
  /\ (forall (inv : Invocation) (current_user : User) (s : Session),
        operation inv <> op_remove_contact ->
        let calls := map fst (snd (run repo (endpoint inv current_user) s))
        in calls <> []
           /\ Forall (fun c => repository_contacts.identity c
                               = Some current_user) calls).
Proof.
  split.
  - intros contact_id current_user s. unfold remove_contact. simpl.
    destruct (repo _ s) as [v s1]. destruct (is_None v); simpl; auto.
  - intros inv current_user s Hop calls. subst calls.
    destruct inv; simpl in Hop; try congruence; simpl;
      unfold get_contacts, get_contacts_by_days, get_contact_by_id,
        create_contact, update_contact; simpl.
    + destruct (truthy_str _); destruct (repo _ s) as [v s1];
        destruct (truthy v); simpl; split; try discriminate;
        repeat constructor.
    + destruct (repo _ s) as [v s1]; destruct (is_None v); simpl;
        split; try discriminate; repeat constructor.
    + destruct (repo _ s) as [v s1]; destruct (is_None v); simpl;
        split; try discriminate; repeat constructor.
    + destruct (repo _ s) as [v s1]; destruct (truthy v); simpl;
        [| destruct (repo _ s1) as [w s2]; simpl];
        split; try discriminate; repeat constructor.
    + destruct (repo _ s) as [v s1]; destruct (is_None v); simpl;
        split; try discriminate; repeat constructor.
Qed.

End Gates.

(** ** Filters of the list operation *)

Section Filters.

Context {Session : Type} (repo : Repository Session).

(** C7, as amended.  List contacts: when at least one of the three filters
    is present and not empty, the one call made is the filtered lookup,
    with the caller and the three filters as given; when every filter is
    absent or empty, it is the unfiltered lookup, with the caller.  Either
    way the call is given the caller's identity and the response to a
    returned value carries what that call came back with; so over a scoped
    data-access layer every contact in the response is owned by the
    caller. *)
Theorem get_contacts_delegation
    (firstname lastname email : option string) (current_user : User)
    (s : Session) :
  let some_filter :=
    truthy_str firstname || truthy_str lastname || truthy_str email in
  let filtered :=
    repository_contacts.get_contact_by_filter
      current_user firstname lastname email in
  let unfiltered := repository_contacts.get_contacts current_user in
  let outcome :=
    handle repo (route op_get_contacts)
      (get_contacts firstname lastname email current_user) s in
  let calls := map fst (snd outcome) in
  (some_filter = true ->
   snd outcome = [(filtered, fst (repo filtered s))])
  /\ (some_filter = false ->
      snd outcome = [(unfiltered, fst (repo unfiltered s))])
  /\ Forall (fun c => repository_contacts.identity c = Some current_user)
       calls
  /\ (forall v,
        body (fst (fst outcome)) = body_content v ->
        exists c, snd outcome = [(c, v)])
  /\ (scoped repo ->
      forall l,
        body (fst (fst outcome)) = body_content (py_list l) ->
        Forall (owned_by current_user) l).
Proof.
  intros some_filter filtered unfiltered outcome calls.
  subst calls outcome. unfold get_contacts. rewrite handle_Await.
  rewrite truthy_str_py_or. fold some_filter. fold filtered unfiltered.
  set (lookup := if some_filter then filtered else unfiltered).
  assert (Hidentity : repository_contacts.identity lookup
                      = Some current_user).
  { subst lookup. destruct some_filter; reflexivity. }
  assert (Hrows : scoped repo -> forall l,
             fst (repo lookup s) = py_list l ->
             Forall (owned_by current_user) l).
  { intros Hscoped l Hl.
    exact (Hscoped lookup s current_user l Hidentity Hl). }
  assert (Hcalls : forall b, some_filter = b ->
            lookup = if b then filtered else unfiltered).
  { intros b Hb. subst lookup. rewrite Hb. reflexivity. }
  assert (Hlog : forall b, some_filter = b ->
            [(lookup, fst (repo lookup s))]
            = [((if b then filtered else unfiltered),
                fst (repo (if b then filtered else unfiltered) s))]).
  { intros b Hb. rewrite <- (Hcalls b Hb). reflexivity. }
  destruct (truthy (fst (repo lookup s))) eqn:Hv; simpl negb; cbv iota;
    unfold handle; simpl;
    (split; [exact (Hlog true) |]);
    (split; [exact (Hlog false) |]);
    (split; [repeat constructor; exact Hidentity |]);
    split.
  - intros v Hbody. inversion Hbody; subst. eexists. reflexivity.
  - intros Hscoped l Hbody. inversion Hbody as [Hl].
    exact (Hrows Hscoped l Hl).
  - intros v Hbody. discriminate Hbody.
  - intros Hscoped l Hbody. discriminate Hbody.
Qed.

End Filters.

(** ** Validation of path parameters *)

Section Validation.

Context {Session : Type} (repo : Repository Session).

(** C8. Get by id, update and delete declare their [contact_id] with a
    lower bound of 1.  A request for one of them with an identifier below
    1 never reaches the handler: no data-access call is made, the session
    is untouched, and the status is not 404; when the request gets past
    the role gate and the rate limiter, it is the status of a validation
    failure. *)
Theorem contact_id_below_one_is_rejected
    (srv : Server Session) (rq : Request) (contact_id : Z) :
  let inv := req_invocation rq in
  operation inv = op_get_contact_by_id
  \/ operation inv = op_update_contact
  \/ operation inv = op_remove_contact ->
  path_value inv = Some contact_id ->
  contact_id < 1 ->
  path_param (route (operation inv)) = Some {| ge := Some 1 |}
  /\ snd (serve repo srv rq) = []
  /\ db (snd (fst (serve repo srv rq))) = db srv
  /\ status (fst (fst (serve repo srv rq))) <> HTTP_404_NOT_FOUND
  /\ (forall current_user counted',
        req_identity rq = Some current_user ->
        RoleAccess_call (role_access (route (operation inv))) current_user
        = true ->
        RateLimiter_call (rate_limiter (route (operation inv)))
          (user_id current_user) (operation inv) (req_time rq)
          (counted srv) = Some counted' ->
        status (fst (fst (serve repo srv rq)))
        = HTTP_422_UNPROCESSABLE_ENTITY).
Proof.
  intros inv Hop Hpath Hlow.
  assert (Hparam : path_param (route (operation inv))
                   = Some {| ge := Some 1 |}).
  { destruct Hop as [H | [H | H]]; rewrite H; reflexivity. }
  assert (Hval : validate (route (operation inv)) inv = false).
  { unfold validate. rewrite Hparam, Hpath. unfold Path_ok. simpl.
    apply Z.leb_gt. exact Hlow. }
  split; [exact Hparam |].
  unfold serve. fold inv.
  destruct (req_identity rq) as [u |]; simpl.
  2: { repeat split; discriminate. }
  destruct (RoleAccess_call _ u) eqn:Hrole; simpl.
  2: { repeat split; try discriminate.
       intros v c' Hv. inversion Hv; subst. congruence. }
  destruct (RateLimiter_call _ _ _ _ _) as [counted1 |] eqn:Hlim; simpl.
  2: { repeat split; try discriminate.
       intros v c' Hv. inversion Hv; subst. congruence. }
  rewrite Hval. simpl. repeat split; try discriminate.
Qed.

(** C10. List by recency declares [days] as a plain integer, with no
    bound: whatever its value, negative ones included, a request that
    gets past the rate limiter passes validation and the handler hands
    that value, with the caller, to the recency lookup. *)
Theorem days_is_unconstrained
    (srv : Server Session) (rq : Request) (days : Z)
    (current_user : User) (counted' : list Counted) :
  req_invocation rq = inv_get_contacts_by_days days ->
  req_identity rq = Some current_user ->
  RateLimiter_call (rate_limiter (route op_get_contacts_by_days))
    (user_id current_user) op_get_contacts_by_days (req_time rq)
    (counted srv) = Some counted' ->
  path_param (route op_get_contacts_by_days) = Some {| ge := None |}
  /\ validate (route op_get_contacts_by_days) (req_invocation rq) = true
  /\ map fst (snd (serve repo srv rq))
     = [repository_contacts.contacts_per_days days current_user]
  /\ status (fst (fst (serve repo srv rq)))
     <> HTTP_422_UNPROCESSABLE_ENTITY.
Proof.
  intros Hinv Hid Hlim.
  split; [reflexivity |]. split; [rewrite Hinv; reflexivity |].
  rewrite (serve_handler repo srv rq current_user counted');
    rewrite ?Hinv; simpl operation; auto.
  - simpl endpoint. unfold get_contacts_by_days. rewrite handle_Await.
    destruct (repo _ (db srv)) as [v s1]. simpl.
    destruct (is_None v); simpl; split; try reflexivity; discriminate.
  - apply RoleAccess_call_not_remove. discriminate.
Qed.

End Validation.

(** ** The rate limit *)

Local Open Scope list_scope.

Lemma Operation_eqb_refl (op : Operation) : Operation_eqb op op = true.
Proof. destruct op; reflexivity. Qed.

(** An invocation of the same identity and route that is less than
    [seconds] old lies in the window. *)
Lemma in_window_same (rl : RateLimiter) (identity : Z) (op : Operation)
    (now t : Z) :
  now - seconds rl < t ->
  in_window rl identity op now (identity, op, t) = true.
Proof.
  intros Ht. unfold in_window.
  rewrite Z.eqb_refl, Operation_eqb_refl. simpl. apply Z.ltb_lt. exact Ht.
Qed.

(** Two counted invocations in the window, wherever they lie in the list,
    make the count at least two. *)
Lemma window_holds_two (f : Counted -> bool) (e1 e2 : Counted)
    (l2 l1 base : list Counted) :
  f e1 = true -> f e2 = true ->
  (2 <= List.length (filter f (l2 ++ e2 :: l1 ++ e1 :: base)))%nat.
Proof.
  intros H1 H2. rewrite filter_app, length_app. simpl. rewrite H2. simpl.
  rewrite filter_app, length_app. simpl. rewrite H1. simpl. lia.
Qed.

Section RateLimit.

Context {Session : Type} (repo : Repository Session).

(** Serving a request only adds to the invocations counted so far. *)
Lemma serve_counted_grows (srv : Server Session) (rq : Request) :
  exists l, counted (snd (fst (serve repo srv rq))) = l ++ counted srv.
Proof.
  unfold serve.
  destruct (req_identity rq) as [u |]; [| exists []; reflexivity].
  destruct (RoleAccess_call _ u); simpl; [| exists []; reflexivity].
  unfold RateLimiter_call.
  destruct (_ <? _)%Z; simpl; [| exists []; reflexivity].
  destruct (validate _ _); simpl.
  - destruct (handle _ _ _ _) as [[resp db'] log]. simpl.
    eexists [_]. reflexivity.
  - eexists [_]. reflexivity.
Qed.

Lemma serve_all_counted_grows (rqs : list Request) :
  forall srv : Server Session,
    exists l, counted (snd (serve_all repo srv rqs)) = l ++ counted srv.
Proof.
  induction rqs as [| rq rest IH]; intros srv; simpl.
  - exists []. reflexivity.
  - destruct (serve_counted_grows srv rq) as [l1 Hl1].
    destruct (serve repo srv rq) as [[resp srv1] log]. simpl in Hl1.
    destruct (IH srv1) as [l2 Hl2].
    destruct (serve_all repo srv1 rest) as [out srv2]. simpl in *.
    exists (l2 ++ l1). rewrite Hl2, Hl1, app_assoc. reflexivity.
Qed.

(** A request of an identified caller with an allowed role that is not
    answered with 429 has been counted by the limiter. *)
Lemma serve_counts (srv : Server Session) (rq : Request) (u : User) :
  let op := operation (req_invocation rq) in
  req_identity rq = Some u ->
  RoleAccess_call (role_access (route op)) u = true ->
  status (fst (fst (serve repo srv rq))) <> HTTP_429_TOO_MANY_REQUESTS ->
  counted (snd (fst (serve repo srv rq)))
  = (user_id u, op, req_time rq) :: counted srv.
Proof.
  intros op Hid Hrole. unfold serve. fold op. rewrite Hid, Hrole. simpl.
  unfold RateLimiter_call. destruct (_ <? _)%Z; simpl.
  - destruct (validate _ _); simpl; [| reflexivity].
    destruct (handle _ _ _ _) as [[resp db'] log]. reflexivity.
  - intros H. contradiction H. reflexivity.
Qed.

(** C9. Each of the six routes declares a limit of 2 invocations per 5
    seconds.  Take three requests of one identity to one route, the third
    less than 5 seconds after the first, with any other requests served
    in between: when the first two were let through by the limiter (by
    [serve_limited_iff], they were not answered with 429), the third is
    answered with 429 by the limiter, the server is left as it was and no
    data-access call is made. *)
Theorem third_request_is_rate_limited
    (srv : Server Session) (rq1 rq2 rq3 : Request)
    (between between' : list Request) (u : User) (op : Operation) :
  (forall rq, In rq [rq1; rq2; rq3] ->
              req_identity rq = Some u
              /\ operation (req_invocation rq) = op) ->
  RoleAccess_call (role_access (route op)) u = true ->
  req_time rq1 <= req_time rq2 <= req_time rq3 ->
  req_time rq3 < req_time rq1 + 5 ->
  let first := serve repo srv rq1 in
  let srv1 := snd (serve_all repo (snd (fst first)) between) in
  let second := serve repo srv1 rq2 in
  let srv2 := snd (serve_all repo (snd (fst second)) between') in
  let third := serve repo srv2 rq3 in
  status (fst (fst first)) <> HTTP_429_TOO_MANY_REQUESTS ->
  status (fst (fst second)) <> HTTP_429_TOO_MANY_REQUESTS ->
  (forall any : Operation,
      rate_limiter (route any) = {| times := 2; seconds := 5 |})
  /\ third = (too_many_requests, srv2, []).
Proof.
  intros Hsame Hrole Horder Hclose first srv1 second srv2 third Hp1 Hp2.
  split; [intros any; destruct any; reflexivity |].
  destruct (Hsame rq1) as [Hid1 Hop1]; [simpl; auto |].
  destruct (Hsame rq2) as [Hid2 Hop2]; [simpl; auto |].
  destruct (Hsame rq3) as [Hid3 Hop3]; [simpl; auto |].
  pose proof (serve_counts srv rq1 u Hid1) as Hc1.
  rewrite Hop1 in Hc1. specialize (Hc1 Hrole Hp1). fold first in Hc1.
  destruct (serve_all_counted_grows between (snd (fst first)))
    as [l1 Hl1]. fold srv1 in Hl1.
  pose proof (serve_counts srv1 rq2 u Hid2) as Hc2.
  rewrite Hop2 in Hc2. specialize (Hc2 Hrole Hp2). fold second in Hc2.
  destruct (serve_all_counted_grows between' (snd (fst second)))
    as [l2 Hl2]. fold srv2 in Hl2.
  assert (Hcounted : counted srv2
            = l2 ++ (user_id u, op, req_time rq2)
              :: l1 ++ (user_id u, op, req_time rq1) :: counted srv).
  { rewrite Hl2, Hc2, Hl1, Hc1. reflexivity. }
  subst third. unfold serve. rewrite Hid3, Hop3, Hrole. simpl.
  unfold RateLimiter_call. rewrite Hcounted.
  assert (Hop : rate_limiter (route op) = {| times := 2; seconds := 5 |})
    by (destruct op; reflexivity).
  rewrite Hop.
  set (f := in_window _ _ _ _).
  assert (Hfull : (2 <= List.length
                         (filter f (l2 ++ (user_id u, op, req_time rq2)
                            :: l1 ++ (user_id u, op, req_time rq1)
                            :: counted srv)))%nat).
  { apply window_holds_two; subst f; apply in_window_same; simpl; lia. }
  simpl times.
  destruct (Z.ltb_spec
              (Z.of_nat (List.length
                 (filter f (l2 ++ (user_id u, op, req_time rq2)
                    :: l1 ++ (user_id u, op, req_time rq1)
                    :: counted srv)))) 2) as [Hlt | Hge].
  - lia.
  - reflexivity.
Qed.

End RateLimit.

(** * Concrete runs *)

(** The layer in memory is scoped. *)
Lemma Memory_repo_scoped : scoped Memory.repo.
Proof.
  intros c st u l Hid Hres.
  assert (Howned : forall (g : Contact -> bool) rows,
             Forall (owned_by u)
               (filter (fun x => Memory.owned u x && g x) rows)).
  { intros g rows. apply Forall_forall. intros x Hx.
    apply filter_In in Hx. destruct Hx as [_ Hx].
    apply andb_true_iff in Hx. destruct Hx as [Hx _].
    apply Z.eqb_eq in Hx. exact Hx. }
  destruct c; simpl in Hid; inversion Hid; subst; simpl in Hres.
  - inversion Hres; subst.
    rewrite (filter_ext _
               (fun x => Memory.owned u x
                         && (Memory.matches firstname0 (contact_firstname x)
                             && Memory.matches lastname0 (contact_lastname x)
                             && Memory.matches email0 (contact_email x)))).
    + apply Howned.
    + intros x. rewrite !andb_assoc. reflexivity.
  - inversion Hres; subst.
    rewrite (filter_ext _ (fun x => Memory.owned u x && true)).
    + apply Howned.
    + intros x. rewrite andb_true_r. reflexivity.
  - inversion Hres; subst. apply Howned.
  - destruct (find _ _); discriminate Hres.
  - destruct (find _ _); discriminate Hres.
  - discriminate Hres.
  - destruct (find _ _); discriminate Hres.
Qed.

Module Runs.

Import Memory.

(** Ann lists her contacts: both of hers, not Bob's. *)
Example ann_lists_her_contacts :
  fst (serve repo (server store)
         (request ann 0 (inv_get_contacts None None None)))
  = ({| status := 200; body := body_content (py_list [c1; c2]) |},
     {| db := store; counted := [(1, op_get_contacts, 0)] |}).
Proof. reflexivity. Qed.

(** Ann filters by last name. *)
Example ann_filters_by_lastname :
  fst (fst (serve repo (server store)
              (request ann 0
                 (inv_get_contacts None (Some "Turing") None))))
  = {| status := 200; body := body_content (py_list [c2]) |}.
Proof. reflexivity. Qed.

(** Ann creates a contact whose email she already has: 409, and the store
    is as before. *)
Example ann_creates_a_duplicate :
  let body := {| firstname := "A."; lastname := "Turing";
                 email := "alan@example.com" |} in
  fst (serve repo (server store) (request ann 0 (inv_create_contact body)))
  = (error_response 409
       "Contact with email:alan@example.com already exist!",
     {| db := store; counted := [(1, op_create_contact, 0)] |}).
Proof. reflexivity. Qed.

(** Bob deletes a contact of Ann's: the delete is by identifier alone. *)
Example bob_deletes_a_contact_of_ann :
  fst (serve repo (server store) (request bob 0 (inv_remove_contact 1)))
  = ({| status := 204; body := body_empty |},
     {| db := {| rows := [c2; c3]; next_id := 4; today := 20 |};
        counted := [(2, op_remove_contact, 0)] |}).
Proof. reflexivity. Qed.

End Runs.

(** * The properties at concrete requests *)

(** Eve, who owns no contact, lists with a first-name filter, and Ann lists
    without a filter over the empty store: the filtered and the unfiltered
    lookup both come back empty, and both listings are a 404. *)
Lemma get_contacts_empty_is_not_found_witness :
  handle Memory.repo (route op_get_contacts)
    (get_contacts (Some "Ada") None None Memory.eve) Memory.store
  = (error_response HTTP_404_NOT_FOUND "No contacts found", Memory.store,
     [(repository_contacts.get_contact_by_filter
         Memory.eve (Some "Ada") None None, py_list [])])
  /\ handle Memory.repo (route op_get_contacts)
       (get_contacts None None None Memory.ann) Memory.empty
     = (error_response HTTP_404_NOT_FOUND "No contacts found", Memory.empty,
        [(repository_contacts.get_contacts Memory.ann, py_list [])]).
Proof.
  split.
  - apply (get_contacts_empty_is_not_found Memory.repo (Some "Ada") None
             None Memory.eve Memory.store).
    reflexivity.
  - apply (get_contacts_empty_is_not_found Memory.repo None None None
             Memory.ann Memory.empty).
    reflexivity.
Defined.

(** In the empty store the recency lookup comes back with the empty list:
    a 200 with an empty list. *)
Lemma get_contacts_by_days_not_found_iff_None_witness :
  fst (Memory.repo (repository_contacts.contacts_per_days 7 Memory.ann)
         Memory.empty) = py_list []
  /\ fst (fst (handle Memory.repo (route op_get_contacts_by_days)
                 (get_contacts_by_days 7 Memory.ann) Memory.empty))
     = {| status := HTTP_200_OK; body := body_content (py_list []) |}.
Proof.
  split; [reflexivity |].
  apply (get_contacts_by_days_not_found_iff_None Memory.repo 7 Memory.ann
           Memory.empty).
  reflexivity.
Defined.

(** Ann creates a contact with an email she has, and one with a new
    email. *)
Lemma create_contact_conflict_or_created_witness :
  let dup := {| firstname := "A."; lastname := "Turing";
                email := "alan@example.com" |} in
  let new := {| firstname := "Kurt"; lastname := "Godel";
                email := "kurt@example.com" |} in
  snd (handle Memory.repo (route op_create_contact)
         (create_contact dup Memory.ann) Memory.store)
  = [(repository_contacts.get_contact_by_email "alan@example.com" Memory.ann,
      py_row Memory.c2)]
  /\ status (fst (fst (handle Memory.repo (route op_create_contact)
                         (create_contact new Memory.ann) Memory.store)))
     = HTTP_201_CREATED.
Proof.
  intros dup new. split.
  - pose proof (create_contact_conflict_or_created Memory.repo dup
                  Memory.ann Memory.store) as [Hconflict _].
    destruct (Hconflict Memory.c2 eq_refl) as [Hrun _].
    rewrite Hrun. reflexivity.
  - pose proof (create_contact_conflict_or_created Memory.repo new
                  Memory.ann Memory.store) as [_ Hcreated].
    rewrite (Hcreated eq_refl). reflexivity.
Defined.

(** Bob, an administrator, deletes contact 1, and then contact 9, which
    does not exist. *)
Lemma remove_contact_no_content_or_not_found_witness :
  fst (fst (serve Memory.repo (Memory.server Memory.store)
              (Memory.request Memory.bob 0 (inv_remove_contact 1))))
  = {| status := HTTP_204_NO_CONTENT; body := body_empty |}
  /\ fst (fst (serve Memory.repo (Memory.server Memory.store)
                 (Memory.request Memory.bob 0 (inv_remove_contact 9))))
     = error_response HTTP_404_NOT_FOUND "Not Found".
Proof.
  split.
  - apply (remove_contact_no_content_or_not_found Memory.repo
             (Memory.server Memory.store)
             (Memory.request Memory.bob 0 (inv_remove_contact 1)) 1
             Memory.bob [(2, op_remove_contact, 0)]);
      try reflexivity; try lia; discriminate.
  - apply (remove_contact_no_content_or_not_found Memory.repo
             (Memory.server Memory.store)
             (Memory.request Memory.bob 0 (inv_remove_contact 9)) 9
             Memory.bob [(2, op_remove_contact, 0)]);
      try reflexivity; lia.
Defined.

(** Ann, an ordinary user, asks to delete her own contact 1; Eve, a
    moderator, asks to delete contact 3. *)
Lemma remove_is_for_admin_only_witness :
  (user_role Memory.ann = user \/ user_role Memory.ann = moderator)
  /\ serve Memory.repo (Memory.server Memory.store)
       (Memory.request Memory.ann 0 (inv_remove_contact 1))
     = (forbidden, Memory.server Memory.store, [])
  /\ serve Memory.repo (Memory.server Memory.store)
       (Memory.request Memory.eve 0 (inv_remove_contact 3))
     = (forbidden, Memory.server Memory.store, []).
Proof.
  split; [left; reflexivity |]. split.
  - apply (remove_is_for_admin_only Memory.repo (Memory.server Memory.store)
             (Memory.request Memory.ann 0 (inv_remove_contact 1))
             Memory.ann);
      [left; reflexivity | reflexivity | reflexivity].
  - apply (remove_is_for_admin_only Memory.repo (Memory.server Memory.store)
             (Memory.request Memory.eve 0 (inv_remove_contact 3))
             Memory.eve);
      [right; reflexivity | reflexivity | reflexivity].
Defined.

(** C7, as stated, fails: with [firstname] present but empty and the other
    two filters absent, the call made is the unfiltered lookup, not the
    filtered one. *)
Lemma get_contacts_empty_filter_goes_unfiltered :
  let calls :=
    map fst (snd (handle Memory.repo (route op_get_contacts)
                    (get_contacts (Some "") None None Memory.ann)
                    Memory.store)) in
  present (Some "")
  /\ calls = [repository_contacts.get_contacts Memory.ann]
  /\ calls <> [repository_contacts.get_contact_by_filter
                 Memory.ann (Some "") None None].
Proof.
  simpl. repeat split; discriminate.
Qed.

(** Ann lists with a last-name filter, and with a first-name filter that
    is empty, over the store in memory. *)
Lemma get_contacts_delegation_witness :
  snd (handle Memory.repo (route op_get_contacts)
         (get_contacts None (Some "Turing") None Memory.ann) Memory.store)
  = [(repository_contacts.get_contact_by_filter
        Memory.ann None (Some "Turing") None, py_list [Memory.c2])]
  /\ snd (handle Memory.repo (route op_get_contacts)
            (get_contacts (Some "") None None Memory.ann) Memory.store)
     = [(repository_contacts.get_contacts Memory.ann,
         py_list [Memory.c1; Memory.c2])]
  /\ Forall (owned_by Memory.ann) [Memory.c1; Memory.c2].
Proof.
  pose proof (get_contacts_delegation Memory.repo None (Some "Turing") None
                Memory.ann Memory.store) as [Hfiltered _].
  pose proof (get_contacts_delegation Memory.repo (Some "") None None
                Memory.ann Memory.store) as [_ [Hunfiltered [_ [_ Hrows]]]].
  split; [exact (Hfiltered eq_refl) |].
  split; [exact (Hunfiltered eq_refl) |].
  exact (Hrows Memory_repo_scoped [Memory.c1; Memory.c2] eq_refl).
Defined.

(** Bob asks for contact 0. *)
Lemma contact_id_below_one_is_rejected_witness :
  serve Memory.repo (Memory.server Memory.store)
    (Memory.request Memory.bob 0 (inv_get_contact_by_id 0))
  = (unprocessable,
     {| db := Memory.store; counted := [(2, op_get_contact_by_id, 0)] |}, [])
  /\ status (fst (fst (serve Memory.repo (Memory.server Memory.store)
                         (Memory.request Memory.bob 0
                            (inv_get_contact_by_id 0)))))
     = HTTP_422_UNPROCESSABLE_ENTITY.
Proof.
  split; [reflexivity |].
  pose proof (contact_id_below_one_is_rejected Memory.repo
                (Memory.server Memory.store)
                (Memory.request Memory.bob 0 (inv_get_contact_by_id 0)) 0)
    as H.
  simpl in H.
  destruct H as [_ [_ [_ [_ H]]]]; [left; reflexivity | reflexivity | lia |].
  apply (H Memory.bob [(2, op_get_contact_by_id, 0)]); reflexivity.
Defined.

(** Ann lists her contacts three times in three seconds, Bob once in
    between. *)
Lemma third_request_is_rate_limited_witness :
  let list_all := inv_get_contacts None None None in
  map (fun r => status (fst r))
    (fst (serve_all Memory.repo (Memory.server Memory.store)
            [Memory.request Memory.ann 0 list_all;
             Memory.request Memory.bob 1 list_all;
             Memory.request Memory.ann 1 list_all;
             Memory.request Memory.ann 2 list_all]))
  = [200; 200; 200; 429]
  /\ fst (serve Memory.repo
            {| db := Memory.store;
               counted := [(1, op_get_contacts, 1); (2, op_get_contacts, 1);
                           (1, op_get_contacts, 0)] |}
            (Memory.request Memory.ann 2 list_all))
     = (too_many_requests,
        {| db := Memory.store;
           counted := [(1, op_get_contacts, 1); (2, op_get_contacts, 1);
                       (1, op_get_contacts, 0)] |}).
Proof.
  intros list_all. split; [reflexivity |].
  pose proof (third_request_is_rate_limited Memory.repo
                (Memory.server Memory.store)
                (Memory.request Memory.ann 0 list_all)
                (Memory.request Memory.ann 1 list_all)
                (Memory.request Memory.ann 2 list_all)
                [Memory.request Memory.bob 1 list_all] []
                Memory.ann op_get_contacts) as H.
  cbv zeta in H.
  destruct H as [_ H].
  - intros rq [Hrq | [Hrq | [Hrq | []]]]; subst rq; split; reflexivity.
  - reflexivity.
  - simpl. lia.
  - simpl. lia.
  - intros Hstatus. vm_compute in Hstatus. discriminate Hstatus.
  - intros Hstatus. vm_compute in Hstatus. discriminate Hstatus.
  - exact (f_equal fst H).
Defined.

(** Ann asks for the contacts of the last -3 days. *)
Lemma days_is_unconstrained_witness :
  map fst (snd (serve Memory.repo (Memory.server Memory.store)
                  (Memory.request Memory.ann 0
                     (inv_get_contacts_by_days (-3)))))
  = [repository_contacts.contacts_per_days (-3) Memory.ann]
  /\ fst (fst (serve Memory.repo (Memory.server Memory.store)
                 (Memory.request Memory.ann 0
                    (inv_get_contacts_by_days (-3)))))
     = {| status := HTTP_200_OK; body := body_content (py_list []) |}.
Proof.
  split; [| reflexivity].
  apply (days_is_unconstrained Memory.repo (Memory.server Memory.store)
           (Memory.request Memory.ann 0 (inv_get_contacts_by_days (-3)))
           (-3) Memory.ann [(1, op_get_contacts_by_days, 0)]);
    reflexivity.
Defined.

(** * Further properties of the handlers *)

Section Lookups.

Context {Session : Type} (repo : Repository Session).

(** X1. Get by id makes one call, the lookup by the identifier for the
    caller, and leaves the session as that call left it.  The response is
    the 404 "Not Found" exactly when the lookup came back with [None];
    otherwise it is a 200 whose body is the value of the lookup,
    unchanged. *)
Theorem get_contact_by_id_found_or_not_found
    (contact_id : Z) (current_user : User) (s : Session) :
  let lookup :=
    repository_contacts.get_contact_by_id contact_id current_user in
  let found := fst (repo lookup s) in
  let outcome :=
    handle repo (route op_get_contact_by_id)
      (get_contact_by_id contact_id current_user) s in
  let resp := fst (fst outcome) in
  snd outcome = [(lookup, found)]
  /\ snd (fst outcome) = snd (repo lookup s)
  /\ (status resp = HTTP_404_NOT_FOUND <-> found = py_None)
  /\ (found = py_None ->
      resp = error_response HTTP_404_NOT_FOUND "Not Found")
  /\ (found <> py_None -> resp = ok_response found).
Proof.
  intros lookup found outcome resp. subst resp outcome.
  unfold get_contact_by_id. rewrite handle_Await.
  fold lookup. fold found.
  destruct found as [| row | l]; simpl;
    (split; [reflexivity |]); (split; [reflexivity |]);
    (split; [split; intros H; try reflexivity; discriminate H |]);
    split; intros H; try reflexivity; try discriminate H;
    contradiction H; reflexivity.
Qed.

(** X2. Update makes one call, the update of the identifier with the
    payload for the caller, and leaves the session as that call left it.
    The response is the 404 "Not Found" exactly when the update came back
    with [None]; otherwise it is a 200 whose body is the value the update
    came back with. *)
Theorem update_contact_updated_or_not_found
    (body : ContactUpdateModel) (contact_id : Z) (current_user : User)
    (s : Session) :
  let update :=
    repository_contacts.update_contact body contact_id current_user in
  let changed := fst (repo update s) in
  let outcome :=
    handle repo (route op_update_contact)
      (update_contact body contact_id current_user) s in
  let resp := fst (fst outcome) in
  snd outcome = [(update, changed)]
  /\ snd (fst outcome) = snd (repo update s)
  /\ (status resp = HTTP_404_NOT_FOUND <-> changed = py_None)
  /\ (changed = py_None ->
      resp = error_response HTTP_404_NOT_FOUND "Not Found")
  /\ (changed <> py_None -> resp = ok_response changed).
Proof.
  intros update changed outcome resp. subst resp outcome.
  unfold update_contact. rewrite handle_Await.
  fold update. fold changed.
  destruct changed as [| row | l]; simpl;
    (split; [reflexivity |]); (split; [reflexivity |]);
    (split; [split; intros H; try reflexivity; discriminate H |]);
    split; intros H; try reflexivity; try discriminate H;
    contradiction H; reflexivity.
Qed.

(** X3. List contacts makes one call and answers on the truth value of
    what it came back with: a 200 carrying that value exactly when it is
    true (a list with an element), the 404 "No contacts found" otherwise,
    for [None] as for the empty list. *)
Theorem get_contacts_ok_iff_truthy
    (firstname lastname email : option string) (current_user : User)
    (s : Session) :
  let outcome :=
    handle repo (route op_get_contacts)
      (get_contacts firstname lastname email current_user) s in
  let resp := fst (fst outcome) in
  exists c : repository_contacts.call,
    let found := fst (repo c s) in
    snd outcome = [(c, found)]
    /\ snd (fst outcome) = snd (repo c s)
    /\ (status resp = HTTP_200_OK <-> truthy found = true)
    /\ (truthy found = true -> resp = ok_response found)
    /\ (truthy found = false ->
        resp = error_response HTTP_404_NOT_FOUND "No contacts found")
    /\ (found = py_None -> status resp = HTTP_404_NOT_FOUND).
Proof.
  intros outcome resp. subst resp outcome.
  unfold get_contacts. rewrite handle_Await.
  set (lookup := if truthy_str _ then _ else _).
  exists lookup. cbv zeta.
  destruct (repo lookup s) as [found s1]. simpl fst. simpl snd.
  destruct found as [| row | [| x l]]; simpl;
    (split; [reflexivity |]); (split; [reflexivity |]);
    (split; [split; intros H; try reflexivity; discriminate H |]);
    (split; [intros H; try reflexivity; discriminate H |]);
    split; intros H; try reflexivity; discriminate H.
Qed.

End Lookups.

Section AllHandlers.

Context {Session : Type} (repo : Repository Session).

(** X4. The statuses a handler can answer with: create answers 201 or 409
    and nothing else, never 404; each of the other five answers the status
    of its route or 404, never 409. *)
Theorem handler_statuses (inv : Invocation) (current_user : User)
    (s : Session) :
  let code :=
    status (fst (fst (handle repo (route (operation inv))
                        (endpoint inv current_user) s))) in
  (operation inv = op_create_contact ->
   code = HTTP_201_CREATED \/ code = HTTP_409_CONFLICT)
  /\ (operation inv <> op_create_contact ->
      code = status_code (route (operation inv))
      \/ code = HTTP_404_NOT_FOUND).
Proof.
  destruct inv; simpl;
    unfold get_contacts, get_contacts_by_days, get_contact_by_id,
      create_contact, update_contact, remove_contact;
    rewrite handle_Await;
    match goal with
    | |- context [repo ?c s] => destruct (repo c s) as [v s1]
    end; simpl fst; simpl snd;
    destruct v as [| row | [| x l]]; simpl;
    try rewrite handle_Await; simpl;
    split; intros H; auto; try discriminate H;
    contradiction H; reflexivity.
Qed.

(** X5. A handler hands on what the data-access layer gave it: whenever a
    handler returns a value, that value is the one its last call came back
    with. *)
Theorem returned_value_is_last_result
    (inv : Invocation) (current_user : User) (s : Session) (v : Value) :
  fst (fst (run repo (endpoint inv current_user) s)) = inr v ->
  exists (c : repository_contacts.call) (before : list Called),
    snd (run repo (endpoint inv current_user) s) = before ++ [(c, v)].
Proof.
  destruct inv; simpl;
    unfold get_contacts, get_contacts_by_days, get_contact_by_id,
      create_contact, update_contact, remove_contact; simpl;
    match goal with
    | |- context [repo ?c s] => destruct (repo c s) as [w s1] eqn:Hcall
    end;
    destruct w as [| row | [| x l]]; simpl;
    try (destruct (repo _ s1) as [w2 s2] eqn:Hcreate; simpl);
    intros H; inversion H; subst;
    try (eexists; exists []; reflexivity);
    eexists; eexists [_]; reflexivity.
Qed.

(** X6. What is written: a request makes at most one writing call (create,
    update or delete), and a handler on a GET route makes none. *)
Theorem at_most_one_write
    (inv : Invocation) (current_user : User) (s : Session) :
  let log := snd (run repo (endpoint inv current_user) s) in
  (writes log <= 1)%nat
  /\ (method (route (operation inv)) = GET -> writes log = 0%nat).
Proof.
  destruct inv; simpl;
    unfold get_contacts, get_contacts_by_days, get_contact_by_id,
      create_contact, update_contact, remove_contact; simpl;
    try (destruct (truthy_str _));
    match goal with
    | |- context [repo ?c s] => destruct (repo c s) as [w s1] eqn:Hcall
    end;
    destruct w as [| row | [| x l]]; simpl;
    try (destruct (repo _ s1) as [w2 s2] eqn:Hcreate; simpl);
    unfold writes; simpl; split; intros; try lia; try discriminate.
Qed.

(** X8. A valid identifier reaches the data-access layer as it came: a
    request for get by id, update or delete with an identifier of at least
    1 that gets past the role gate and the rate limiter is never answered
    with a validation failure, and the one call it makes is the call of its
    own operation with that identifier (and, for update, with the payload
    of the request). *)
Theorem valid_contact_id_reaches_the_call
    (srv : Server Session) (rq : Request) (contact_id : Z)
    (current_user : User) (counted' : list Counted) :
  let inv := req_invocation rq in
  let rt := route (operation inv) in
  let calls := map fst (snd (serve repo srv rq)) in
  let code := status (fst (fst (serve repo srv rq))) in
  1 <= contact_id ->
  req_identity rq = Some current_user ->
  RoleAccess_call (role_access rt) current_user = true ->
  RateLimiter_call (rate_limiter rt) (user_id current_user)
    (operation inv) (req_time rq) (counted srv) = Some counted' ->
  (inv = inv_get_contact_by_id contact_id ->
   code <> HTTP_422_UNPROCESSABLE_ENTITY
   /\ calls = [repository_contacts.get_contact_by_id
                 contact_id current_user])
  /\ (forall body,
        inv = inv_update_contact body contact_id ->
        code <> HTTP_422_UNPROCESSABLE_ENTITY
        /\ calls = [repository_contacts.update_contact
                      body contact_id current_user])
  /\ (inv = inv_remove_contact contact_id ->
      code <> HTTP_422_UNPROCESSABLE_ENTITY
      /\ calls = [repository_contacts.remove_contact contact_id]).
Proof.
  intros inv rt calls code Hid Huser Hrole Hlim.
  assert (Hval : forall p, path_param rt = Some {| ge := Some 1 |} ->
                           path_value inv = Some contact_id ->
                           p = validate rt inv -> p = true).
  { intros p Hparam Hpath Hp. subst p. unfold validate.
    rewrite Hparam, Hpath. unfold Path_ok. simpl.
    apply Z.leb_le. exact Hid. }
  subst calls code.
  split; [| split]; [intros Hinv | intros body Hinv | intros Hinv];
    (rewrite (serve_handler repo srv rq current_user counted'); auto;
     [| fold inv; fold rt; apply (Hval (validate rt inv));
        subst rt; rewrite ?Hinv; reflexivity ]);
    fold inv; fold rt; subst rt; rewrite Hinv;
    simpl endpoint; simpl operation;
    unfold get_contact_by_id, update_contact, remove_contact;
    rewrite handle_Await;
    match goal with
    | |- context [repo ?c (db srv)] => destruct (repo c (db srv)) as [v s1]
    end; simpl fst; simpl snd;
    destruct v as [| row | l]; simpl;
    (split; [discriminate | reflexivity]).
Qed.

End AllHandlers.

Section Sequences.

Context {Session : Type} (repo : Repository Session).

(** X9. Creating the same payload twice in a row: when the caller had no
    contact with that email, and the data-access layer finds by email the
    contact it has just created, the first create is answered 201 and the
    second 409; the two requests together make one create call, and the
    second leaves the session as its lookup left it. *)
Theorem create_contact_twice
    (body : ContactModel) (current_user : User) (s : Session) :
  let lookup :=
    repository_contacts.get_contact_by_email (email body) current_user in
  let create := repository_contacts.create_contact body current_user in
  let first :=
    handle repo (route op_create_contact)
      (create_contact body current_user) s in
  let second :=
    handle repo (route op_create_contact)
      (create_contact body current_user) (snd (fst first)) in
  fst (repo lookup s) = py_None ->
  truthy (fst (repo lookup (snd (repo create (snd (repo lookup s))))))
  = true ->
  status (fst (fst first)) = HTTP_201_CREATED
  /\ status (fst (fst second)) = HTTP_409_CONFLICT
  /\ writes (snd first ++ snd second) = 1%nat
  /\ snd (fst second) = snd (repo lookup (snd (fst first))).
Proof.
  intros lookup create first second Hnone Hfound.
  assert (Hfirst : first
                   = ({| status := HTTP_201_CREATED;
                         body := body_content
                                   (fst (repo create (snd (repo lookup s))))
                      |},
                      snd (repo create (snd (repo lookup s))),
                      [(lookup, py_None);
                       (create, fst (repo create (snd (repo lookup s))))])).
  { subst first. unfold create_contact. rewrite handle_Await.
    fold lookup. rewrite Hnone. simpl truthy. cbv iota.
    rewrite handle_Await. fold create. reflexivity. }
  subst second. rewrite Hfirst. simpl fst. simpl snd.
  unfold create_contact. rewrite handle_Await. fold lookup.
  rewrite Hfound. simpl. unfold writes. simpl. auto.
Qed.

End Sequences.

(** * The further properties at concrete requests *)

(** Ann asks for contact 2, which is hers, and for contact 3, which is
    Bob's. *)
Lemma get_contact_by_id_found_or_not_found_witness :
  fst (fst (handle Memory.repo (route op_get_contact_by_id)
              (get_contact_by_id 2 Memory.ann) Memory.store))
  = ok_response (py_row Memory.c2)
  /\ fst (fst (handle Memory.repo (route op_get_contact_by_id)
                 (get_contact_by_id 3 Memory.ann) Memory.store))
     = error_response HTTP_404_NOT_FOUND "Not Found".
Proof.
  split.
  - apply (get_contact_by_id_found_or_not_found Memory.repo 2 Memory.ann
             Memory.store).
    discriminate.
  - apply (get_contact_by_id_found_or_not_found Memory.repo 3 Memory.ann
             Memory.store).
    reflexivity.
Defined.

(** Ann changes the last name of contact 2, and then of contact 3, which
    is not hers. *)
Lemma update_contact_updated_or_not_found_witness :
  let change := {| upd_firstname := None; upd_lastname := Some "Mathison";
                   upd_email := None |} in
  fst (fst (handle Memory.repo (route op_update_contact)
              (update_contact change 2 Memory.ann) Memory.store))
  = ok_response
      (py_row {| contact_id := 2; contact_firstname := "Alan";
                 contact_lastname := "Mathison";
                 contact_email := "alan@example.com";
                 contact_owner := 1; contact_created := 18 |})
  /\ fst (fst (handle Memory.repo (route op_update_contact)
                 (update_contact change 3 Memory.ann) Memory.store))
     = error_response HTTP_404_NOT_FOUND "Not Found".
Proof.
  intros change. split.
  - apply (update_contact_updated_or_not_found Memory.repo change 2
             Memory.ann Memory.store).
    discriminate.
  - apply (update_contact_updated_or_not_found Memory.repo change 3
             Memory.ann Memory.store).
    reflexivity.
Defined.

(** Eve has no contacts: her listing is not a 200. *)
Lemma get_contacts_ok_iff_truthy_witness :
  status (fst (fst (handle Memory.repo (route op_get_contacts)
                      (get_contacts None None None Memory.eve)
                      Memory.store)))
  <> HTTP_200_OK.
Proof.
  destruct (get_contacts_ok_iff_truthy Memory.repo None None None
              Memory.eve Memory.store) as [c [Hlog [_ [Hok _]]]].
  intros H. apply Hok in H.
  assert (Hc : c = repository_contacts.get_contacts Memory.eve).
  { simpl in Hlog. inversion Hlog. reflexivity. }
  subst c. discriminate H.
Defined.

(** Ann creates a contact with an email she already has. *)
Lemma handler_statuses_witness :
  let dup := {| firstname := "A."; lastname := "Turing";
                email := "alan@example.com" |} in
  let code :=
    status (fst (fst (handle Memory.repo (route op_create_contact)
                        (endpoint (inv_create_contact dup) Memory.ann)
                        Memory.store))) in
  code = HTTP_201_CREATED \/ code = HTTP_409_CONFLICT.
Proof.
  intros dup code.
  apply (handler_statuses Memory.repo (inv_create_contact dup) Memory.ann
           Memory.store).
  reflexivity.
Defined.

(** Ann creates a new contact: the value returned is what create came back
    with. *)
Lemma returned_value_is_last_result_witness :
  let new := {| firstname := "Kurt"; lastname := "Godel";
                email := "kurt@example.com" |} in
  let row := Memory.new_contact new Memory.ann Memory.store in
  fst (fst (run Memory.repo (endpoint (inv_create_contact new) Memory.ann)
              Memory.store)) = inr (py_row row)
  /\ exists c before,
       snd (run Memory.repo (endpoint (inv_create_contact new) Memory.ann)
              Memory.store) = (before ++ [(c, py_row row)])%list.
Proof.
  intros new row.
  assert (H : fst (fst (run Memory.repo
                          (endpoint (inv_create_contact new) Memory.ann)
                          Memory.store)) = inr (py_row row))
    by reflexivity.
  split; [exact H |].
  exact (returned_value_is_last_result Memory.repo (inv_create_contact new)
           Memory.ann Memory.store (py_row row) H).
Defined.

(** Ann lists the contacts of the last week: a GET, no writing call. *)
Lemma at_most_one_write_witness :
  method (route (operation (inv_get_contacts_by_days 7))) = GET
  /\ writes (snd (run Memory.repo
                    (endpoint (inv_get_contacts_by_days 7) Memory.ann)
                    Memory.store)) = 0%nat.
Proof.
  split; [reflexivity |].
  apply (at_most_one_write Memory.repo (inv_get_contacts_by_days 7)
           Memory.ann Memory.store).
  reflexivity.
Defined.

(** Bob reads, changes and deletes contact 3 through the three routes. *)
Lemma valid_contact_id_reaches_the_call_witness :
  let change := {| upd_firstname := None; upd_lastname := Some "Murray";
                   upd_email := None |} in
  let calls (inv : Invocation) :=
    map fst (snd (serve Memory.repo (Memory.server Memory.store)
                    (Memory.request Memory.bob 0 inv))) in
  calls (inv_get_contact_by_id 3)
  = [repository_contacts.get_contact_by_id 3 Memory.bob]
  /\ calls (inv_update_contact change 3)
     = [repository_contacts.update_contact change 3 Memory.bob]
  /\ calls (inv_remove_contact 3)
     = [repository_contacts.remove_contact 3].
Proof.
  intros change calls. subst calls. cbv beta.
  split; [| split].
  - apply (valid_contact_id_reaches_the_call Memory.repo
             (Memory.server Memory.store)
             (Memory.request Memory.bob 0 (inv_get_contact_by_id 3)) 3
             Memory.bob [(2, op_get_contact_by_id, 0)]);
      try reflexivity; lia.
  - apply (valid_contact_id_reaches_the_call Memory.repo
             (Memory.server Memory.store)
             (Memory.request Memory.bob 0 (inv_update_contact change 3)) 3
             Memory.bob [(2, op_update_contact, 0)]);
      try reflexivity; lia.
  - apply (valid_contact_id_reaches_the_call Memory.repo
             (Memory.server Memory.store)
             (Memory.request Memory.bob 0 (inv_remove_contact 3)) 3
             Memory.bob [(2, op_remove_contact, 0)]);
      try reflexivity; lia.
Defined.

(** Ann creates Kurt twice over the store in memory. *)
Lemma create_contact_twice_witness :
  let new := {| firstname := "Kurt"; lastname := "Godel";
                email := "kurt@example.com" |} in
  let first :=
    handle Memory.repo (route op_create_contact)
      (create_contact new Memory.ann) Memory.store in
  let second :=
    handle Memory.repo (route op_create_contact)
      (create_contact new Memory.ann) (snd (fst first)) in
  status (fst (fst first)) = HTTP_201_CREATED
  /\ status (fst (fst second)) = HTTP_409_CONFLICT
  /\ writes (snd first ++ snd second) = 1%nat
  /\ snd (fst second)
     = snd (Memory.repo
              (repository_contacts.get_contact_by_email
                 "kurt@example.com" Memory.ann) (snd (fst first))).
Proof.
  intros new first second.
  apply (create_contact_twice Memory.repo new Memory.ann Memory.store);
    reflexivity.
Defined.
